(** * The book service of [app/main.py]

    A shallow embedding of the six FastAPI handlers of [app/main.py] and of
    the module-level dictionary [books] they share, followed by the
    properties of the handlers.

    - A Python [int] is unbounded: book ids are [Z].
    - The dictionary [books] maps ids to titles: [gmap Z string].  Its
      iteration order is not modelled; no property below depends on it.
    - A handler reads and writes the one global dictionary and may, like any
      Python call, raise: it is a function from the dictionary to an
      [outcome], either a returned value with the dictionary after the call
      or a raised exception with the dictionary at that point. *)

From Stdlib Require Import ZArith String.
From stdpp Require Import gmap.

Local Open Scope Z_scope.
Local Open Scope string_scope.

(** ** Python values and exceptions *)

(** The values found in the dictionaries the handlers return. *)
Inductive value : Type :=
| VInt (z : Z)
| VStr (s : string).

(** The only exception a [dict] method used here can raise. *)
Inductive exn : Type :=
| KeyError (key : Z).

(** What a handler returns: a dictionary literal with string keys
    ([{"id": ..., "title": ...}], [{"message": ...}]) or the dictionary
    [books] itself ([list_books]). *)
Inductive response : Type :=
| Obj (fields : list (string * value))
| Books (entries : gmap Z string).

(** ** The state and error monad of the handlers *)

Inductive outcome (A : Type) : Type :=
| Return (a : A) (books : gmap Z string)
| Raise (e : exn) (books : gmap Z string).

Arguments Return {A} a books.
Arguments Raise {A} e books.

Definition handler (A : Type) : Type := gmap Z string -> outcome A.

#[global] Instance handler_ret : MRet handler :=
  fun A (a : A) books => Return a books.

#[global] Instance handler_bind : MBind handler :=
  fun A B (k : A -> handler B) (m : handler A) books =>
    match m books with
    | Return a books' => k a books'
    | Raise e books' => Raise e books'
    end.

(** The dictionary a computation leaves behind, returned or raised. *)
Definition books_after {A : Type} (o : outcome A) : gmap Z string :=
  match o with
  | Return _ books => books
  | Raise _ books => books
  end.

(** The value a computation returns, if it returns. *)
Definition returned {A : Type} (o : outcome A) : option A :=
  match o with
  | Return a _ => Some a
  | Raise _ _ => None
  end.

(** ** The [dict] methods the handlers call on [books] *)

(** [books[key] = item] *)
Definition dict_setitem (key : Z) (item : string) : handler unit :=
  fun books => Return tt (<[key := item]> books).

(** [books.get(key, default)]: never raises. *)
Definition dict_get (key : Z) (default : string) : handler string :=
  fun books =>
    match books !! key with
    | Some item => Return item books
    | None => Return default books
    end.

(** [books.pop(key[, default])]: removes [key] and returns its item; when
    [key] is absent it returns [default] if one is given and raises
    [KeyError] otherwise.  The default passed in [delete_book] is [None],
    so a returned item is an optional title. *)
Definition dict_pop (key : Z) (default : option (option string))
  : handler (option string) :=
  fun books =>
    match books !! key with
    | Some item => Return (Some item) (delete key books)
    | None =>
        match default with
        | Some d => Return d books
        | None => Raise (KeyError key) books
        end
    end.

(** Reading the global [books]. *)
Definition dict_read : handler (gmap Z string) :=
  fun books => Return books books.

(** ** The handlers *)

Definition root : handler response :=
  mret (Obj [("message", VStr "Hello from FastAPI CI/CD!")]).

Definition create_book (book_id : Z) (title : string) : handler response :=
  dict_setitem book_id title;;
  mret (Obj [("id", VInt book_id); ("title", VStr title)]).

Definition list_books : handler response :=
  entries ← dict_read;
  mret (Books entries).

Definition get_book (book_id : Z) : handler response :=
  title ← dict_get book_id "Not Found";
  mret (Obj [("id", VInt book_id); ("title", VStr title)]).

Definition update_book (book_id : Z) (title : string) : handler response :=
  dict_setitem book_id title;;
  mret (Obj [("id", VInt book_id); ("title", VStr title)]).

Definition delete_book (book_id : Z) : handler response :=
  dict_pop book_id (Some None);;
  mret (Obj [("message", VStr "Deleted")]).

(** ** The routing table *)

(** One constructor per decorated route, with the parameters FastAPI has
    already coerced to [int] and [str]. *)
Inductive request : Type :=
| GET_root
| POST_books_id (book_id : Z) (title : string)
| GET_books
| GET_books_id (book_id : Z)
| PUT_books_id (book_id : Z) (title : string)
| DELETE_books_id (book_id : Z).

Definition dispatch (r : request) : handler response :=
  match r with
  | GET_root => root
  | POST_books_id book_id title => create_book book_id title
  | GET_books => list_books
  | GET_books_id book_id => get_book book_id
  | PUT_books_id book_id title => update_book book_id title
  | DELETE_books_id book_id => delete_book book_id
  end.

(** Requests served one after the other by one process; an exception that
    escapes a handler ends the run here. *)
Fixpoint serve (rs : list request) : handler (list response) :=
  match rs with
  | [] => mret []
  | r :: rs' =>
      resp ← dispatch r;
      resps ← serve rs';
      mret (resp :: resps)
  end.

(** ** Reading a response *)

Fixpoint assoc (name : string) (fields : list (string * value)) : option value :=
  match fields with
  | [] => None
  | (k, v) :: fields' => if String.eqb k name then Some v else assoc name fields'
  end.

(** The field [name] of a response.  The keys of [books] are integers, so
    the dictionary returned by [list_books] has no field of any name. *)
Definition field (name : string) (r : response) : option value :=
  match r with
  | Obj fields => assoc name fields
  | Books _ => None
  end.

(** The [create_book] calls of a list of (id, title) pairs, in order. *)
Definition creations (l : list (Z * string)) : list request :=
  (fun kt => POST_books_id kt.1 kt.2) <$> l.

(** The dictionary after the assignments [books[id] = title] of a list of
    pairs, taken from left to right. *)
Definition assigned (books : gmap Z string) (l : list (Z * string))
  : gmap Z string :=
  foldl (fun m kt => <[kt.1 := kt.2]> m) books l.

(** The title of the last pair of a list that carries a given id, if the
    list has one: the title a run of [books[id] = title] assignments leaves
    at that id. *)
Fixpoint last_title (book_id : Z) (l : list (Z * string)) : option string :=
  match l with
  | [] => None
  | (k, t) :: l' =>
      match last_title book_id l' with
      | Some t' => Some t'
      | None => if decide (k = book_id) then Some t else None
      end
  end.

(** The routes whose handler assigns to [books]: POST and PUT. *)
Definition is_write (r : request) : bool :=
  match r with
  | POST_books_id _ _ | PUT_books_id _ _ => true
  | _ => false
  end.

(** The routes whose handler is a GET. *)
Definition is_read (r : request) : bool :=
  match r with
  | GET_root | GET_books | GET_books_id _ => true
  | _ => false
  end.

(** * Properties *)

(** Unfolds a handler down to the dictionary operations it performs. *)
Ltac run_handler :=
  unfold root, create_book, list_books, get_book, update_book, delete_book,
    dict_setitem, dict_get, dict_pop, dict_read,
    mbind, mret, handler_bind, handler_ret; simpl.

(** ** The model on concrete inputs *)

(** The scenario of the specification, from an empty dictionary. *)
Example scenario_dune :
  serve [POST_books_id 1 "Dune"; GET_books_id 1; DELETE_books_id 1;
         GET_books_id 1] ∅
  = Return [Obj [("id", VInt 1); ("title", VStr "Dune")];
            Obj [("id", VInt 1); ("title", VStr "Dune")];
            Obj [("message", VStr "Deleted")];
            Obj [("id", VInt 1); ("title", VStr "Not Found")]] ∅.
Proof. vm_compute. reflexivity. Qed.

(** [pop] without a default raises on an absent key: the default that
    [delete_book] passes is what keeps it from raising. *)
Example dict_pop_no_default_raises :
  dict_pop 1 None ∅ = Raise (KeyError 1) ∅.
Proof. reflexivity. Qed.

(** A book whose title is the placeholder reads like an absent one. *)
Example placeholder_ambiguity :
  returned (get_book 1 {[1 := "Not Found"]}) = returned (get_book 1 ∅).
Proof. reflexivity. Qed.

(** A second [create_book] on the same id overwrites the first. *)
Example create_twice_overwrites :
  serve [POST_books_id 1 "Dune"; POST_books_id 1 "Emma"; GET_books] ∅
  = Return [Obj [("id", VInt 1); ("title", VStr "Dune")];
            Obj [("id", VInt 1); ("title", VStr "Emma")];
            Books {[1 := "Emma"]}] {[1 := "Emma"]}.
Proof. vm_compute. reflexivity. Qed.

(** ** Equations of the handlers *)

Lemma root_eq (books : gmap Z string) :
  root books = Return (Obj [("message", VStr "Hello from FastAPI CI/CD!")]) books.
Proof. reflexivity. Qed.

Lemma create_book_eq (book_id : Z) (title : string) (books : gmap Z string) :
  create_book book_id title books
  = Return (Obj [("id", VInt book_id); ("title", VStr title)])
      (<[book_id := title]> books).
Proof. reflexivity. Qed.

Lemma update_book_eq (book_id : Z) (title : string) (books : gmap Z string) :
  update_book book_id title books
  = Return (Obj [("id", VInt book_id); ("title", VStr title)])
      (<[book_id := title]> books).
Proof. reflexivity. Qed.

Lemma list_books_eq (books : gmap Z string) :
  list_books books = Return (Books books) books.
Proof. reflexivity. Qed.

Lemma get_book_eq (book_id : Z) (books : gmap Z string) :
  get_book book_id books
  = Return (Obj [("id", VInt book_id);
                 ("title", VStr (default "Not Found" (books !! book_id)))])
      books.
Proof. run_handler. destruct (books !! book_id); reflexivity. Qed.

Lemma delete_book_eq (book_id : Z) (books : gmap Z string) :
  delete_book book_id books
  = Return (Obj [("message", VStr "Deleted")]) (delete book_id books).
Proof.
  run_handler. destruct (books !! book_id) eqn:Hk; [reflexivity|].
  by rewrite delete_id.
Qed.

(** Every handler returns: none of the six raises, on any dictionary. *)
Lemma dispatch_returns (r : request) (books : gmap Z string) :
  ∃ resp books', dispatch r books = Return resp books'.
Proof.
  destruct r; simpl.
  - rewrite root_eq; eauto.
  - rewrite create_book_eq; eauto.
  - rewrite list_books_eq; eauto.
  - rewrite get_book_eq; eauto.
  - rewrite update_book_eq; eauto.
  - rewrite delete_book_eq; eauto.
Qed.

Lemma serve_cons (r : request) (rs : list request) (books : gmap Z string) :
  serve (r :: rs) books
  = match dispatch r books with
    | Return resp books1 =>
        match serve rs books1 with
        | Return resps books2 => Return (resp :: resps) books2
        | Raise e books2 => Raise e books2
        end
    | Raise e books1 => Raise e books1
    end.
Proof.
  simpl. unfold mbind, handler_bind.
  destruct (dispatch r books) as [resp books1|]; [|reflexivity].
  destruct (serve rs books1); reflexivity.
Qed.

(** ** Sequences of [create_book] calls *)

Lemma serve_creations (l : list (Z * string)) (books : gmap Z string) :
  serve (creations l) books
  = Return ((fun kt => Obj [("id", VInt kt.1); ("title", VStr kt.2)]) <$> l)
      (assigned books l).
Proof.
  revert books. induction l as [|[k t] l IH]; intros books; [reflexivity|].
  change (creations ((k, t) :: l)) with (POST_books_id k t :: creations l).
  rewrite serve_cons. simpl dispatch. rewrite create_book_eq, IH.
  reflexivity.
Qed.

(** With pairwise distinct ids, the entry of an id after the assignments is
    the pair of the list with that id, or the earlier entry when the list
    has no such pair. *)
Lemma assigned_lookup (l : list (Z * string)) (books : gmap Z string)
    (k : Z) (t : string) :
  NoDup l.*1 ->
  assigned books l !! k = Some t
  <-> (k, t) ∈ l \/ ((k ∉ l.*1) /\ books !! k = Some t).
Proof.
  revert books. induction l as [|[k0 t0] l IH]; intros books Hnd.
  - simpl. split.
    + intros Hk. right. split; [apply not_elem_of_nil | exact Hk].
    + intros [Hin | [_ Hk]]; [by apply elem_of_nil in Hin | exact Hk].
  - apply NoDup_cons in Hnd as [Hk0 Hnd].
    change (assigned books ((k0, t0) :: l))
      with (assigned (<[k0 := t0]> books) l).
    rewrite (IH _ Hnd). simpl. rewrite !elem_of_cons.
    destruct (decide (k = k0)) as [->|Hne].
    + rewrite lookup_insert_eq. split.
      * intros [Hin | [_ Heq]].
        -- exfalso. apply Hk0. apply (list_elem_of_fmap_2 fst) in Hin. exact Hin.
        -- left. left. congruence.
      * intros [[Heq | Hin] | [Hnot _]].
        -- right. split; [exact Hk0 | congruence].
        -- by left.
        -- exfalso. apply Hnot. by left.
    + rewrite (lookup_insert_ne books k0 k t0) by congruence. split.
      * intros [Hin | [Hnot Hk]]; [left; by right|].
        right. split; [|exact Hk]. intros [? | ?]; [congruence | by apply Hnot].
      * intros [[Heq | Hin] | [Hnot Hk]].
        -- congruence.
        -- by left.
        -- right. split; [|exact Hk]. intros Hin. apply Hnot. by right.
Qed.

(** Each assignment to a fresh id adds one entry. *)
Lemma assigned_size (l : list (Z * string)) (books : gmap Z string) :
  NoDup l.*1 ->
  (forall k, k ∈ l.*1 -> books !! k = None) ->
  size (assigned books l) = (size books + length l)%nat.
Proof.
  revert books. induction l as [|[k0 t0] l IH]; intros books Hnd Hfresh.
  - simpl. lia.
  - apply NoDup_cons in Hnd as [Hk0 Hnd].
    change (assigned books ((k0, t0) :: l))
      with (assigned (<[k0 := t0]> books) l).
    rewrite (IH _ Hnd).
    + rewrite map_size_insert_None; [simpl; lia|].
      apply Hfresh. simpl. by left.
    + intros k Hk. rewrite lookup_insert_ne.
      * apply Hfresh. simpl. by right.
      * intros ->. by apply Hk0.
Qed.

(** ** The properties of the handlers *)

(** C1. For every id, title [t] and dictionary, [create_book id t] returns
    and a following [get_book id] returns a response whose title field is
    [t]. *)
Theorem get_book_after_create_book (book_id : Z) (t : string)
    (books : gmap Z string) :
  ∃ r1 books1 r2 books2,
    create_book book_id t books = Return r1 books1
    ∧ get_book book_id books1 = Return r2 books2
    ∧ field "title" r2 = Some (VStr t).
Proof.
  eexists _, _, _, _. rewrite create_book_eq, get_book_eq.
  split; [reflexivity|]. split; [reflexivity|].
  rewrite lookup_insert_eq. reflexivity.
Qed.

(** C2. For every id, titles [t1], [t2] and dictionary, [create_book id t1]
    then [update_book id t2] both return, and a following [get_book id]
    returns a response whose title field is [t2]: the last write wins. *)
Theorem get_book_after_create_then_update (book_id : Z) (t1 t2 : string)
    (books : gmap Z string) :
  ∃ r1 books1 r2 books2 r3 books3,
    create_book book_id t1 books = Return r1 books1
    ∧ update_book book_id t2 books1 = Return r2 books2
    ∧ get_book book_id books2 = Return r3 books3
    ∧ field "title" r3 = Some (VStr t2).
Proof.
  eexists _, _, _, _, _, _.
  rewrite create_book_eq, update_book_eq, get_book_eq.
  repeat (split; [reflexivity|]).
  rewrite lookup_insert_eq. reflexivity.
Qed.

(** C3. For every id that is not a key of the dictionary, [get_book id]
    does not raise: it returns the response with the requested id and the
    literal title "Not Found", and leaves the dictionary as it was. *)
Theorem get_book_absent (book_id : Z) (books : gmap Z string) :
  books !! book_id = None ->
  get_book book_id books
  = Return (Obj [("id", VInt book_id); ("title", VStr "Not Found")]) books.
Proof. intros Habsent. rewrite get_book_eq, Habsent. reflexivity. Qed.

Lemma get_book_absent_witness :
  ({[1 := "Dune"]} : gmap Z string) !! 7 = None
  ∧ get_book 7 {[1 := "Dune"]}
    = Return (Obj [("id", VInt 7); ("title", VStr "Not Found")])
        {[1 := "Dune"]}.
Proof.
  split; [reflexivity|].
  apply (get_book_absent 7 {[1 := "Dune"]}). reflexivity.
Defined.

(** C4. For every id and dictionary, with the id present or not,
    [delete_book id] returns and a following [get_book id] returns a
    response whose title field is the placeholder "Not Found". *)
Theorem get_book_after_delete_book (book_id : Z) (books : gmap Z string) :
  ∃ r1 books1 r2 books2,
    delete_book book_id books = Return r1 books1
    ∧ get_book book_id books1 = Return r2 books2
    ∧ field "title" r2 = Some (VStr "Not Found").
Proof.
  eexists _, _, _, _. rewrite delete_book_eq, get_book_eq.
  repeat (split; [reflexivity|]).
  rewrite lookup_delete_eq. reflexivity.
Qed.

(** C5. For every id, title and dictionary, [update_book] and
    [create_book] have the same outcome, response and dictionary alike:
    both return [{"id": id, "title": title}] and leave the dictionary with
    [id] mapped to [title] and every other entry as before. *)
Theorem update_book_is_create_book (book_id : Z) (title : string)
    (books : gmap Z string) :
  update_book book_id title books = create_book book_id title books
  ∧ create_book book_id title books
    = Return (Obj [("id", VInt book_id); ("title", VStr title)])
        (<[book_id := title]> books)
  ∧ <[book_id := title]> books !! book_id = Some title.
Proof.
  split; [reflexivity|]. split; [reflexivity|]. apply lookup_insert_eq.
Qed.

(** C6. For every id and dictionary, [delete_book id] returns the fixed
    message [{"message": "Deleted"}]; afterwards the id is not a key of the
    dictionary, and when it was not a key before the dictionary is
    unchanged. *)
Theorem delete_book_removes (book_id : Z) (books : gmap Z string) :
  ∃ books',
    delete_book book_id books
    = Return (Obj [("message", VStr "Deleted")]) books'
    ∧ books' !! book_id = None
    ∧ books' = match books !! book_id with
               | Some _ => delete book_id books
               | None => books
               end.
Proof.
  exists (delete book_id books). rewrite delete_book_eq.
  split; [reflexivity|]. split; [apply lookup_delete_eq|].
  destruct (books !! book_id) eqn:Hk; [reflexivity|]. by apply delete_id.
Qed.

(** C7. From the empty dictionary, after the [create_book] calls of any
    list of N (id, title) pairs with pairwise distinct ids, [list_books]
    returns a dictionary with exactly those N entries: an id is mapped to a
    title exactly when the pair is in the list, and there are N entries. *)
Theorem list_books_after_creations (l : list (Z * string)) :
  NoDup l.*1 ->
  ∃ resps books entries,
    serve (creations l) ∅ = Return resps books
    ∧ list_books books = Return (Books entries) books
    ∧ (∀ book_id title,
         entries !! book_id = Some title ↔ (book_id, title) ∈ l)
    ∧ size entries = length l.
Proof.
  intros Hnd. eexists _, _, _. rewrite serve_creations, list_books_eq.
  split; [reflexivity|]. split; [reflexivity|]. split.
  - intros k t. rewrite (assigned_lookup l ∅ k t Hnd). split.
    + intros [Hin | [_ Hk]]; [exact Hin|]. by rewrite lookup_empty in Hk.
    + intros Hin. by left.
  - rewrite (assigned_size l ∅ Hnd).
    + by rewrite map_size_empty.
    + intros k _. apply lookup_empty.
Qed.

Lemma list_books_after_creations_witness :
  NoDup [(3, "Emma"); (1, "Dune"); (2, "Ulysses")].*1
  ∧ ∃ resps books entries,
      serve (creations [(3, "Emma"); (1, "Dune"); (2, "Ulysses")]) ∅
      = Return resps books
      ∧ list_books books = Return (Books entries) books
      ∧ (∀ book_id title,
           entries !! book_id = Some title
           ↔ (book_id, title) ∈ [(3, "Emma"); (1, "Dune"); (2, "Ulysses")])
      ∧ size entries = length [(3, "Emma"); (1, "Dune"); (2, "Ulysses")].
Proof.
  assert (Hnd : NoDup [(3, "Emma"); (1, "Dune"); (2, "Ulysses")].*1).
  { apply (bool_decide_unpack _). vm_compute. exact I. }
  split; [exact Hnd|].
  apply (list_books_after_creations [(3, "Emma"); (1, "Dune"); (2, "Ulysses")]).
  exact Hnd.
Defined.

(** C8. For every sequence of requests to the six routes, with any integer
    ids and any string titles, and from every dictionary, no handler
    raises: the whole sequence is served and every request gets its
    response. *)
Theorem serve_never_raises (rs : list request) (books : gmap Z string) :
  ∃ resps books',
    serve rs books = Return resps books' ∧ length resps = length rs.
Proof.
  revert books. induction rs as [|r rs IH]; intros books.
  - exists [], books. split; reflexivity.
  - rewrite serve_cons.
    destruct (dispatch_returns r books) as (resp & books1 & ->).
    destruct (IH books1) as (resps & books2 & -> & Hlen).
    exists (resp :: resps), books2. split; [reflexivity|].
    simpl. by rewrite Hlen.
Qed.

(** C9. For every dictionary, [root] returns the fixed greeting
    [{"message": "Hello from FastAPI CI/CD!"}] and leaves the dictionary
    unchanged. *)
Theorem root_greets (books : gmap Z string) :
  root books
  = Return (Obj [("message", VStr "Hello from FastAPI CI/CD!")]) books
  ∧ books_after (root books) = books.
Proof. split; reflexivity. Qed.

(** C10. For every id, title and dictionary and every other id [id'],
    [create_book id title], [update_book id title] and [delete_book id]
    leave the entry at [id'], present or absent, as it was. *)
Theorem writes_leave_other_ids (book_id id' : Z) (title : string)
    (books : gmap Z string) :
  id' ≠ book_id ->
  books_after (create_book book_id title books) !! id' = books !! id'
  ∧ books_after (update_book book_id title books) !! id' = books !! id'
  ∧ books_after (delete_book book_id books) !! id' = books !! id'.
Proof.
  intros Hne. rewrite create_book_eq, update_book_eq, delete_book_eq. simpl.
  rewrite lookup_insert_ne by congruence.
  rewrite lookup_delete_ne by congruence.
  done.
Qed.

Lemma writes_leave_other_ids_witness :
  (2 : Z) ≠ 1
  ∧ books_after (create_book 1 "Emma" {[1 := "Dune"; 2 := "Ulysses"]}) !! 2
    = ({[1 := "Dune"; 2 := "Ulysses"]} : gmap Z string) !! 2
  ∧ books_after (update_book 1 "Emma" {[1 := "Dune"; 2 := "Ulysses"]}) !! 2
    = ({[1 := "Dune"; 2 := "Ulysses"]} : gmap Z string) !! 2
  ∧ books_after (delete_book 1 {[1 := "Dune"; 2 := "Ulysses"]}) !! 2
    = ({[1 := "Dune"; 2 := "Ulysses"]} : gmap Z string) !! 2.
Proof.
  split; [lia|].
  apply (writes_leave_other_ids 1 2 "Emma" {[1 := "Dune"; 2 := "Ulysses"]}).
  lia.
Defined.

(** * Further properties of the handlers *)

(** ** The dictionary a request leaves behind *)

Lemma dispatch_books_after (r : request) (books : gmap Z string) :
  books_after (dispatch r books)
  = match r with
    | POST_books_id book_id title | PUT_books_id book_id title =>
        <[book_id := title]> books
    | DELETE_books_id book_id => delete book_id books
    | GET_root | GET_books | GET_books_id _ => books
    end.
Proof.
  destruct r; simpl dispatch;
    rewrite ?root_eq, ?create_book_eq, ?list_books_eq, ?get_book_eq,
      ?update_book_eq, ?delete_book_eq; reflexivity.
Qed.

Lemma serve_cons_books_after (r : request) (rs : list request)
    (books : gmap Z string) :
  books_after (serve (r :: rs) books)
  = books_after (serve rs (books_after (dispatch r books))).
Proof.
  rewrite serve_cons.
  destruct (dispatch_returns r books) as (resp & books1 & ->). simpl.
  destruct (serve rs books1); reflexivity.
Qed.

Lemma assigned_last_title (l : list (Z * string)) (books : gmap Z string)
    (k : Z) :
  assigned books l !! k
  = match last_title k l with
    | Some t => Some t
    | None => books !! k
    end.
Proof.
  revert books. induction l as [|[k0 t0] l IH]; intros books; [reflexivity|].
  change (assigned books ((k0, t0) :: l))
    with (assigned (<[k0 := t0]> books) l).
  rewrite IH. simpl. destruct (last_title k l); [reflexivity|].
  destruct (decide (k0 = k)) as [->|Hne].
  - apply lookup_insert_eq.
  - by apply lookup_insert_ne.
Qed.

(** ** Reads *)

(** X1. When the id is a key of the dictionary, [get_book] returns the
    response with that id and the stored title, and leaves the dictionary
    as it was. *)
Theorem get_book_present (book_id : Z) (t : string) (books : gmap Z string) :
  books !! book_id = Some t ->
  get_book book_id books
  = Return (Obj [("id", VInt book_id); ("title", VStr t)]) books.
Proof. intros Hk. rewrite get_book_eq, Hk. reflexivity. Qed.

Lemma get_book_present_witness :
  ({[1 := "Dune"; 2 := "Emma"]} : gmap Z string) !! 2 = Some "Emma"
  ∧ get_book 2 {[1 := "Dune"; 2 := "Emma"]}
    = Return (Obj [("id", VInt 2); ("title", VStr "Emma")])
        {[1 := "Dune"; 2 := "Emma"]}.
Proof.
  split; [reflexivity|].
  apply (get_book_present 2 "Emma" {[1 := "Dune"; 2 := "Emma"]}). reflexivity.
Defined.

(** X2. The two reading handlers never write: [get_book], on any id,
    present or not, and [list_books] leave the dictionary as it was, and
    the dictionary [list_books] returns is that very dictionary. *)
Theorem reads_leave_books (book_id : Z) (books : gmap Z string) :
  books_after (get_book book_id books) = books
  ∧ books_after (list_books books) = books
  ∧ returned (list_books books) = Some (Books books).
Proof. rewrite get_book_eq, list_books_eq. done. Qed.

(** X3. A stored title that is the placeholder itself cannot be told from
    a missing book: when the id is mapped to "Not Found", [get_book]
    returns the same response as on the dictionary without that id. *)
Theorem get_book_placeholder_ambiguous (book_id : Z) (books : gmap Z string) :
  books !! book_id = Some "Not Found" ->
  returned (get_book book_id books)
  = returned (get_book book_id (delete book_id books)).
Proof.
  intros Hk. rewrite !get_book_eq, Hk, lookup_delete_eq. reflexivity.
Qed.

Lemma get_book_placeholder_ambiguous_witness :
  ({[5 := "Not Found"]} : gmap Z string) !! 5 = Some "Not Found"
  ∧ returned (get_book 5 {[5 := "Not Found"]})
    = returned (get_book 5 (delete 5 ({[5 := "Not Found"]} : gmap Z string))).
Proof.
  split; [reflexivity|].
  apply (get_book_placeholder_ambiguous 5 {[5 := "Not Found"]}). reflexivity.
Defined.

(** ** Writes repeated and undone *)

(** X4. [create_book] is idempotent: the same call made a second time has
    the outcome of the first, response and dictionary alike. *)
Theorem create_book_idempotent (book_id : Z) (title : string)
    (books : gmap Z string) :
  create_book book_id title (books_after (create_book book_id title books))
  = create_book book_id title books.
Proof.
  rewrite !create_book_eq. simpl. by rewrite insert_insert_eq.
Qed.

(** X5. [delete_book] is idempotent: the same call made a second time has
    the outcome of the first, response and dictionary alike. *)
Theorem delete_book_idempotent (book_id : Z) (books : gmap Z string) :
  delete_book book_id (books_after (delete_book book_id books))
  = delete_book book_id books.
Proof.
  rewrite !delete_book_eq. simpl. by rewrite delete_delete_eq.
Qed.

(** X6. Creating a book under an id that is not a key and then deleting it
    gives back the dictionary one started from. *)
Theorem delete_book_undoes_create_book (book_id : Z) (title : string)
    (books : gmap Z string) :
  books !! book_id = None ->
  books_after
    (delete_book book_id (books_after (create_book book_id title books)))
  = books.
Proof.
  intros Hk. rewrite create_book_eq. simpl. rewrite delete_book_eq. simpl.
  by rewrite delete_insert_id.
Qed.

Lemma delete_book_undoes_create_book_witness :
  ({[1 := "Dune"]} : gmap Z string) !! 2 = None
  ∧ books_after
      (delete_book 2 (books_after (create_book 2 "Emma" {[1 := "Dune"]})))
    = {[1 := "Dune"]}.
Proof.
  split; [reflexivity|].
  apply (delete_book_undoes_create_book 2 "Emma" {[1 := "Dune"]}).
  reflexivity.
Defined.




(** X9. The number of books after a write: [create_book] and [update_book]
    add one entry when the id was not a key and none when it was;
    [delete_book] takes one entry away when the id was a key and none when
    it was not. *)
Theorem size_after_write (book_id : Z) (title : string)
    (books : gmap Z string) :
  size (books_after (create_book book_id title books))
  = match books !! book_id with
    | Some _ => size books
    | None => S (size books)
    end
  ∧ size (books_after (update_book book_id title books))
    = match books !! book_id with
      | Some _ => size books
      | None => S (size books)
      end
  ∧ size (books_after (delete_book book_id books))
    = match books !! book_id with
      | Some _ => Nat.pred (size books)
      | None => size books
      end.
Proof.
  rewrite create_book_eq, update_book_eq, delete_book_eq. simpl.
  rewrite map_size_insert, map_size_delete.
  destruct (books !! book_id); done.
Qed.

(** X10. [update_book] does not require the book to exist: on an id that
    is not a key it returns the usual response and creates the entry, so
    that there is one book more than before. *)
Theorem update_book_creates_absent (book_id : Z) (title : string)
    (books : gmap Z string) :
  books !! book_id = None ->
  ∃ books',
    update_book book_id title books
    = Return (Obj [("id", VInt book_id); ("title", VStr title)]) books'
    ∧ books' !! book_id = Some title
    ∧ size books' = S (size books).
Proof.
  intros Hk. exists (<[book_id := title]> books). rewrite update_book_eq.
  split; [reflexivity|]. split; [apply lookup_insert_eq|].
  by apply map_size_insert_None.
Qed.

Lemma update_book_creates_absent_witness :
  ({[1 := "Dune"]} : gmap Z string) !! 2 = None
  ∧ ∃ books',
      update_book 2 "Emma" {[1 := "Dune"]}
      = Return (Obj [("id", VInt 2); ("title", VStr "Emma")]) books'
      ∧ books' !! 2 = Some "Emma"
      ∧ size books' = S (size ({[1 := "Dune"]} : gmap Z string)).
Proof.
  split; [reflexivity|].
  apply (update_book_creates_absent 2 "Emma" {[1 := "Dune"]}). reflexivity.
Defined.

(** ** Sequences of requests *)

(** X11. Last write wins along any run of [create_book] calls, ids
    repeated or not, from any dictionary: afterwards [get_book id] returns
    the title of the last call made with that id, and when no call had that
    id, what it would have returned before the run. *)
Theorem get_book_after_creations (l : list (Z * string)) (book_id : Z)
    (books : gmap Z string) :
  ∃ resps books',
    serve (creations l) books = Return resps books'
    ∧ get_book book_id books'
      = Return
          (Obj [("id", VInt book_id);
                ("title",
                 VStr match last_title book_id l with
                      | Some t => t
                      | None => default "Not Found" (books !! book_id)
                      end)])
          books'.
Proof.
  eexists _, _. rewrite serve_creations. split; [reflexivity|].
  rewrite get_book_eq, assigned_last_title.
  destruct (last_title book_id l); reflexivity.
Qed.

(** X12. Every book comes from a write: an entry found in the dictionary
    after a sequence of requests was in the dictionary before it, or the
    sequence has a POST or a PUT request with that id and that title. *)
Theorem entries_come_from_writes (rs : list request) (books : gmap Z string)
    (book_id : Z) (title : string) :
  books_after (serve rs books) !! book_id = Some title ->
  books !! book_id = Some title
  ∨ POST_books_id book_id title ∈ rs
  ∨ PUT_books_id book_id title ∈ rs.
Proof.
  revert books. induction rs as [|r rs IH]; intros books Hk.
  - left. exact Hk.
  - rewrite serve_cons_books_after in Hk.
    destruct (IH _ Hk) as [Hbefore | [Hpost | Hput]].
    + rewrite dispatch_books_after in Hbefore.
      destruct r as [|k t| |k|k t|k].
      * by left.
      * destruct (decide (k = book_id)) as [->|Hne].
        -- rewrite lookup_insert_eq in Hbefore.
           right. left. injection Hbefore as ->. by left.
        -- rewrite lookup_insert_ne in Hbefore by exact Hne. by left.
      * by left.
      * by left.
      * destruct (decide (k = book_id)) as [->|Hne].
        -- rewrite lookup_insert_eq in Hbefore.
           right. right. injection Hbefore as ->. by left.
        -- rewrite lookup_insert_ne in Hbefore by exact Hne. by left.
      * destruct (decide (k = book_id)) as [->|Hne].
        -- by rewrite lookup_delete_eq in Hbefore.
        -- rewrite lookup_delete_ne in Hbefore by exact Hne. by left.
    + right. left. by right.
    + right. right. by right.
Qed.

Lemma entries_come_from_writes_witness :
  books_after
    (serve [POST_books_id 1 "Dune"; DELETE_books_id 3; PUT_books_id 2 "Emma";
            GET_books] {[3 := "Ulysses"]}) !! 2 = Some "Emma"
  ∧ (({[3 := "Ulysses"]} : gmap Z string) !! 2 = Some "Emma"
     ∨ POST_books_id 2 "Emma"
       ∈ [POST_books_id 1 "Dune"; DELETE_books_id 3; PUT_books_id 2 "Emma";
          GET_books]
     ∨ PUT_books_id 2 "Emma"
       ∈ [POST_books_id 1 "Dune"; DELETE_books_id 3; PUT_books_id 2 "Emma";
          GET_books]).
Proof.
  split; [reflexivity|].
  apply (entries_come_from_writes
           [POST_books_id 1 "Dune"; DELETE_books_id 3; PUT_books_id 2 "Emma";
            GET_books] {[3 := "Ulysses"]} 2 "Emma").
  reflexivity.
Defined.

(** X13. The dictionary grows by at most one book per POST or PUT request:
    after any sequence of requests it has at most as many entries as before
    plus the number of POST and PUT requests served. *)
Theorem size_after_serve (rs : list request) (books : gmap Z string) :
  (size (books_after (serve rs books))
   ≤ size books + length (filter is_write rs))%nat.
Proof.
  revert books. induction rs as [|r rs IH]; intros books; [simpl; lia|].
  rewrite serve_cons_books_after. etrans; [apply IH|].
  rewrite dispatch_books_after.
  destruct r as [|k t| |k|k t|k];
    rewrite ?filter_cons_True, ?filter_cons_False by (simpl; auto);
    rewrite ?map_size_insert, ?map_size_delete;
    simpl; try destruct (books !! k); simpl; lia.
Qed.

(** X14. GET requests are transparent: a sequence of requests leaves the
    dictionary that the same sequence without its GET requests leaves. *)
Theorem reads_are_transparent (rs : list request) (books : gmap Z string) :
  books_after (serve rs books)
  = books_after (serve (filter (fun r => is_read r = false) rs) books).
Proof.
  revert books. induction rs as [|r rs IH]; intros books; [reflexivity|].
  rewrite serve_cons_books_after, IH, dispatch_books_after.
  destruct r;
    rewrite ?filter_cons_True, ?filter_cons_False by (simpl; auto);
    rewrite ?serve_cons_books_after, ?dispatch_books_after; reflexivity.
Qed.
